(** * Telemetry manager of the memobase server

    A shallow embedding of
    [src/server/api/memobase_server/telemetry/open_telemetry.py]:
    the three metric enums with their lookup methods, the
    [TelemetryManager] class and the statements executed when the module is
    imported.  Python exceptions are an explicit result type, the mutable
    manager and the process-wide SDK state are threaded through a small
    state-and-exception monad. *)

From stdpp Require Import base option list strings gmap fin_maps finite pretty.
From Stdlib Require Import ZArith QArith.

Local Open Scope Z_scope.
Local Open Scope string_scope.

(** ** Exceptions and results *)

(** The exception classes that occur in the module.  [OSError] carries the
    [errno] attribute the handler of [setup_telemetry] inspects;
    [AttributeError] carries the class of the receiver and the attribute that
    was looked up on it. *)
Inductive exn : Type :=
  | OSError (errno : Z)
  | RuntimeError (msg : string)
  | KeyError (msg : string)
  | AttributeError (cls attr : string)
  | Exception (msg : string).

#[global] Instance exn_eq_dec : EqDecision exn.
Proof. solve_decision. Defined.

Inductive result (A : Type) : Type :=
  | Ok (a : A)
  | Raise (e : exn).
Arguments Ok {A} a.
Arguments Raise {A} e.

(** ** The metric catalog *)

Inductive CounterMetricName : Type :=
  | REQUEST
  | HEALTHCHECK
  | LLM_INVOCATIONS
  | LLM_TOKENS_INPUT
  | LLM_TOKENS_OUTPUT.

Inductive HistogramMetricName : Type :=
  | LLM_LATENCY_MS
  | REQUEST_LATENCY_MS.

Inductive GaugeMetricName : Type :=
  | INPUT_TOKEN_COUNT
  | OUTPUT_TOKEN_COUNT.

#[global] Instance CounterMetricName_eq_dec : EqDecision CounterMetricName.
Proof. solve_decision. Defined.
#[global] Instance HistogramMetricName_eq_dec : EqDecision HistogramMetricName.
Proof. solve_decision. Defined.
#[global] Instance GaugeMetricName_eq_dec : EqDecision GaugeMetricName.
Proof. solve_decision. Defined.

(** Iterating over an [Enum] class yields its members in definition order. *)
Definition CounterMetricName_members : list CounterMetricName :=
  [REQUEST; HEALTHCHECK; LLM_INVOCATIONS; LLM_TOKENS_INPUT; LLM_TOKENS_OUTPUT].
Definition HistogramMetricName_members : list HistogramMetricName :=
  [LLM_LATENCY_MS; REQUEST_LATENCY_MS].
Definition GaugeMetricName_members : list GaugeMetricName :=
  [INPUT_TOKEN_COUNT; OUTPUT_TOKEN_COUNT].

#[global, refine] Instance CounterMetricName_finite : Finite CounterMetricName :=
  {| enum := CounterMetricName_members |}.
Proof.
  - by apply (bool_decide_unpack _).
  - by intros []; apply (bool_decide_unpack _).
Defined.
#[global, refine] Instance HistogramMetricName_finite : Finite HistogramMetricName :=
  {| enum := HistogramMetricName_members |}.
Proof.
  - by apply (bool_decide_unpack _).
  - by intros []; apply (bool_decide_unpack _).
Defined.
#[global, refine] Instance GaugeMetricName_finite : Finite GaugeMetricName :=
  {| enum := GaugeMetricName_members |}.
Proof.
  - by apply (bool_decide_unpack _).
  - by intros []; apply (bool_decide_unpack _).
Defined.

(** A Python dict literal [{k1: v1, ..., kn: vn}]: the entries are stored
    from left to right, a repeated key keeps the last value. *)
Definition dict_literal `{Countable K} {V : Type} (kvs : list (K * V)) : gmap K V :=
  foldl (λ d kv, <[kv.1 := kv.2]> d) ∅ kvs.

(** [d[k]]: subscription of a dict raises [KeyError] on a missing key. *)
Definition dict_getitem `{Countable K} {V : Type}
    (key_repr : K → string) (d : gmap K V) (k : K) : result V :=
  match d !! k with
  | Some v => Ok v
  | None => Raise (KeyError (key_repr k))
  end.

Module Counter_name.

(** [self.value] *)
Definition value (self : CounterMetricName) : string :=
  match self with
  | REQUEST => "requests_total"
  | HEALTHCHECK => "healthcheck_total"
  | LLM_INVOCATIONS => "llm_invocations_total"
  | LLM_TOKENS_INPUT => "llm_tokens_input_total"
  | LLM_TOKENS_OUTPUT => "llm_tokens_output_total"
  end.

(** [self.name] *)
Definition name (self : CounterMetricName) : string :=
  match self with
  | REQUEST => "REQUEST"
  | HEALTHCHECK => "HEALTHCHECK"
  | LLM_INVOCATIONS => "LLM_INVOCATIONS"
  | LLM_TOKENS_INPUT => "LLM_TOKENS_INPUT"
  | LLM_TOKENS_OUTPUT => "LLM_TOKENS_OUTPUT"
  end.

(** [str(self)], which is also what an f-string interpolates. *)
Definition str (self : CounterMetricName) : string :=
  "CounterMetricName." ++ name self.

Definition descriptions : gmap CounterMetricName string :=
  dict_literal
    [ (REQUEST, "Total number of requests to the memobase server");
      (HEALTHCHECK, "Total number of healthcheck requests to the memobase server");
      (LLM_INVOCATIONS, "Total number of LLM invocations");
      (LLM_TOKENS_INPUT, "Total number of input tokens");
      (LLM_TOKENS_OUTPUT, "Total number of output tokens") ].

Definition get_description (self : CounterMetricName) : result string :=
  dict_getitem str descriptions self.

Definition get_metric_name (self : CounterMetricName) : string :=
  "memobase_server_" ++ value self.

End Counter_name.

Module Histogram_name.

Definition value (self : HistogramMetricName) : string :=
  match self with
  | LLM_LATENCY_MS => "llm_latency"
  | REQUEST_LATENCY_MS => "request_latency"
  end.

Definition name (self : HistogramMetricName) : string :=
  match self with
  | LLM_LATENCY_MS => "LLM_LATENCY_MS"
  | REQUEST_LATENCY_MS => "REQUEST_LATENCY_MS"
  end.

Definition str (self : HistogramMetricName) : string :=
  "HistogramMetricName." ++ name self.

Definition descriptions : gmap HistogramMetricName string :=
  dict_literal
    [ (LLM_LATENCY_MS, "Latency of the LLM in milliseconds");
      (REQUEST_LATENCY_MS, "Latency of the request in milliseconds") ].

Definition get_description (self : HistogramMetricName) : result string :=
  dict_getitem str descriptions self.

Definition get_metric_name (self : HistogramMetricName) : string :=
  "memobase_server_" ++ value self.

End Histogram_name.

Module Gauge_name.

Definition value (self : GaugeMetricName) : string :=
  match self with
  | INPUT_TOKEN_COUNT => "input_token_count_per_call"
  | OUTPUT_TOKEN_COUNT => "output_token_count_per_call"
  end.

Definition name (self : GaugeMetricName) : string :=
  match self with
  | INPUT_TOKEN_COUNT => "INPUT_TOKEN_COUNT"
  | OUTPUT_TOKEN_COUNT => "OUTPUT_TOKEN_COUNT"
  end.

Definition str (self : GaugeMetricName) : string :=
  "GaugeMetricName." ++ name self.

Definition descriptions : gmap GaugeMetricName string :=
  dict_literal
    [ (INPUT_TOKEN_COUNT, "Number of input tokens per call");
      (OUTPUT_TOKEN_COUNT, "Number of output tokens per call") ].

Definition get_description (self : GaugeMetricName) : result string :=
  dict_getitem str descriptions self.

Definition get_metric_name (self : GaugeMetricName) : string :=
  "memobase_server_" ++ value self.

End Gauge_name.

(** The key type of [TelemetryManager.metrics]:
    [CounterMetricName | HistogramMetricName | GaugeMetricName]. *)
Inductive MetricName : Type :=
  | CounterKey (m : CounterMetricName)
  | HistogramKey (m : HistogramMetricName)
  | GaugeKey (m : GaugeMetricName).

#[global] Instance MetricName_eq_dec : EqDecision MetricName.
Proof. solve_decision. Defined.

Definition MetricName_to_sum (k : MetricName)
    : CounterMetricName + (HistogramMetricName + GaugeMetricName) :=
  match k with
  | CounterKey m => inl m
  | HistogramKey m => inr (inl m)
  | GaugeKey m => inr (inr m)
  end.

Definition MetricName_of_sum
    (s : CounterMetricName + (HistogramMetricName + GaugeMetricName)) : MetricName :=
  match s with
  | inl m => CounterKey m
  | inr (inl m) => HistogramKey m
  | inr (inr m) => GaugeKey m
  end.

#[global] Instance MetricName_countable : Countable MetricName.
Proof.
  refine (inj_countable' MetricName_to_sum MetricName_of_sum _).
  by intros [].
Defined.

(** The three kinds of instrument, and the kind an identity belongs to. *)
Inductive Kind : Type := KCounter | KHistogram | KGauge.

#[global] Instance Kind_eq_dec : EqDecision Kind.
Proof. solve_decision. Defined.

Definition kind_of (k : MetricName) : Kind :=
  match k with
  | CounterKey _ => KCounter
  | HistogramKey _ => KHistogram
  | GaugeKey _ => KGauge
  end.

(** The methods of the enums, dispatched on the class of the member. *)
Definition get_metric_name (k : MetricName) : string :=
  match k with
  | CounterKey m => Counter_name.get_metric_name m
  | HistogramKey m => Histogram_name.get_metric_name m
  | GaugeKey m => Gauge_name.get_metric_name m
  end.

Definition get_description (k : MetricName) : result string :=
  match k with
  | CounterKey m => Counter_name.get_description m
  | HistogramKey m => Histogram_name.get_description m
  | GaugeKey m => Gauge_name.get_description m
  end.

Definition value (k : MetricName) : string :=
  match k with
  | CounterKey m => Counter_name.value m
  | HistogramKey m => Histogram_name.value m
  | GaugeKey m => Gauge_name.value m
  end.

Definition str (k : MetricName) : string :=
  match k with
  | CounterKey m => Counter_name.str m
  | HistogramKey m => Histogram_name.str m
  | GaugeKey m => Gauge_name.str m
  end.

(** The whole catalog, in the order in which [setup_metrics] visits it. *)
Definition catalog : list MetricName :=
  (CounterKey <$> CounterMetricName_members)
  ++ (HistogramKey <$> HistogramMetricName_members)
  ++ (GaugeKey <$> GaugeMetricName_members).

(** ** Instruments of the metrics SDK *)

(** A recorded value: Python passes [int] and [float] amounts alike.  The
    module only hands them to the SDK, it never computes with them. *)
Inductive number : Type :=
  | PyInt (z : Z)
  | PyFloat (q : Q).

(** [attributes: Dict[str, str] = None] *)
Definition Attributes : Type := option (gmap string string).

Record Measurement : Type := mkMeasurement {
  amount : number;
  attributes : Attributes;
}.

(** An instrument object as the module sees it: the three arguments it was
    created with and the measurements it was handed so far, oldest first.
    The kind is the class of the object. *)
Record Instr (k : Kind) : Type := mkInstr {
  instr_name : string;
  instr_unit : string;
  instr_description : string;
  instr_measurements : list Measurement;
}.
Arguments mkInstr {k} _ _ _ _.
Arguments instr_name {k} _.
Arguments instr_unit {k} _.
Arguments instr_description {k} _.
Arguments instr_measurements {k} _.

Abbreviation Counter := (Instr KCounter).
Abbreviation Histogram := (Instr KHistogram).
Abbreviation Gauge := (Instr KGauge).

(** The value type of [TelemetryManager.metrics]: [Counter | Histogram | Gauge]. *)
Inductive Instrument : Type :=
  | ICounter (c : Counter)
  | IHistogram (h : Histogram)
  | IGauge (g : Gauge).

Definition instrument_kind (i : Instrument) : Kind :=
  match i with
  | ICounter _ => KCounter
  | IHistogram _ => KHistogram
  | IGauge _ => KGauge
  end.

(** The name of the class of the instruments of a kind, as the module
    imports it. *)
Definition Kind_class_name (k : Kind) : string :=
  match k with
  | KCounter => "Counter"
  | KHistogram => "Histogram"
  | KGauge => "Gauge"
  end.

Definition class_name (i : Instrument) : string :=
  Kind_class_name (instrument_kind i).

Definition measurements_of (i : Instrument) : list Measurement :=
  match i with
  | ICounter c => instr_measurements c
  | IHistogram h => instr_measurements h
  | IGauge g => instr_measurements g
  end.

(** The instrument takes the measurement: [Counter.add], [Histogram.record]
    and [Gauge.set] each pass one measurement to the SDK. *)
Definition consume {k : Kind} (i : Instr k) (v : number) (a : Attributes) : Instr k :=
  mkInstr (instr_name i) (instr_unit i) (instr_description i)
          (instr_measurements i ++ [mkMeasurement v a]).

(** Attribute lookup on an instrument object.  Each class has its own
    recording method and none of the others': looking up a method the class
    does not define raises [AttributeError]. *)
Definition getattr_add (i : Instrument) : result (number → Attributes → Instrument) :=
  match i with
  | ICounter c => Ok (λ v a, ICounter (consume c v a))
  | _ => Raise (AttributeError (class_name i) "add")
  end.

Definition getattr_record (i : Instrument) : result (number → Attributes → Instrument) :=
  match i with
  | IHistogram h => Ok (λ v a, IHistogram (consume h v a))
  | _ => Raise (AttributeError (class_name i) "record")
  end.

Definition getattr_set (i : Instrument) : result (number → Attributes → Instrument) :=
  match i with
  | IGauge g => Ok (λ v a, IGauge (consume g v a))
  | _ => Raise (AttributeError (class_name i) "set")
  end.

(** The meter handle: its three factory methods, called with the name, the
    unit and the description.  A call may raise. *)
Record Meter : Type := mkMeter {
  create_counter : string → string → string → result Counter;
  create_histogram : string → string → string → result Histogram;
  create_gauge : string → string → string → result Gauge;
}.

(** ** The process around the manager *)

Inductive MetricReader : Type := PrometheusMetricReader.

Record MeterProvider : Type := mkMeterProvider {
  resource : gmap string string;
  metric_readers : list MetricReader;
}.

(** [opentelemetry.sdk.resources.SERVICE_NAME] *)
Definition SERVICE_NAME : string := "service.name".

Inductive LogRecord : Type := warning (msg : string).

(** The process-wide state the module touches besides its own manager: the
    global meter provider, the ports served by [start_http_server] and the
    records written to [LOG]. *)
Record World : Type := mkWorld {
  meter_provider : option MeterProvider;
  http_servers : list Z;
  LOG : list LogRecord;
}.

(** The operating system under the interpreter decides the number that
    [errno.EADDRINUSE] stands for. *)
Inductive Platform : Type := Linux | Darwin | Windows.

Definition EADDRINUSE (p : Platform) : Z :=
  match p with
  | Linux => 98
  | Darwin => 48
  | Windows => 10048
  end.

(** What the surroundings answer: whether [start_http_server(port)] returns
    ([None]) or raises, and the meter that [metrics.get_meter(name)] returns. *)
Record Host : Type := mkHost {
  platform : Platform;
  start_http_server_outcome : Z → option exn;
  get_meter_outcome : string → Meter;
}.

(** ** The manager *)

Record TelemetryManager : Type := mkTelemetryManager {
  service_name : string;
  prometheus_port : Z;
  metrics : gmap MetricName Instrument;
  _meter : option Meter;
}.

(** [TelemetryManager.__init__] *)
Definition default_service_name : string := "memobase-server".
Definition default_prometheus_port : Z := 9464.

Definition __init__ (service_name : string) (prometheus_port : Z) : TelemetryManager :=
  {| service_name := service_name;
     prometheus_port := prometheus_port;
     metrics := ∅;
     _meter := None |}.

Record State : Type := mkState {
  self : TelemetryManager;
  world : World;
}.

(** ** The monad: state that survives an exception *)

Definition M (A : Type) : Type := State → result A * State.

#[global] Instance M_ret : MRet M := λ A a s, (Ok a, s).
#[global] Instance M_bind : MBind M := λ A B f m s,
  match m s with
  | (Ok a, s') => f a s'
  | (Raise e, s') => (Raise e, s')
  end.

Definition raise {A : Type} (e : exn) : M A := λ s, (Raise e, s).

Definition lift {A : Type} (r : result A) : M A := λ s, (r, s).

Definition get_self : M TelemetryManager := λ s, (Ok (self s), s).

Definition set_self (f : TelemetryManager → TelemetryManager) : M unit :=
  λ s, (Ok (), mkState (f (self s)) (world s)).

Definition set_world (f : World → World) : M unit :=
  λ s, (Ok (), mkState (self s) (f (world s))).

(** [try: body / except OSError as e: handler e]: an exception of another
    class passes through. *)
Definition try_except_OSError {A : Type} (body : M A) (handler : Z → M A) : M A :=
  λ s, match body s with
       | (Raise (OSError errno), s') => handler errno s'
       | r => r
       end.

(** [for x in xs: body x] *)
Fixpoint for_each {A : Type} (xs : list A) (body : A → M unit) : M unit :=
  match xs with
  | [] => mret ()
  | x :: xs' => body x ;; for_each xs' body
  end.

(** ** Calls into the SDK and the logger *)

(** [metrics.set_meter_provider(provider)]: the API installs a global
    provider once; a later call leaves the installed one in place. *)
Definition set_meter_provider (provider : MeterProvider) : M unit :=
  set_world (λ w,
    mkWorld (match meter_provider w with
             | None => Some provider
             | Some p => Some p
             end)
            (http_servers w) (LOG w)).

(** [start_http_server(port)] *)
Definition start_http_server (h : Host) (port : Z) : M unit :=
  match start_http_server_outcome h port with
  | None =>
      set_world (λ w, mkWorld (meter_provider w) (http_servers w ++ [port]) (LOG w))
  | Some e => raise e
  end.

(** [LOG.warning(msg)] *)
Definition LOG_warning (msg : string) : M unit :=
  set_world (λ w, mkWorld (meter_provider w) (http_servers w) (LOG w ++ [warning msg])).

(** [metrics.get_meter(name)] *)
Definition get_meter (h : Host) (name : string) : M Meter :=
  mret (get_meter_outcome h name).

(** [self.metrics[metric] = instrument] *)
Definition metrics_setitem (metric : MetricName) (instrument : Instrument) : M unit :=
  set_self (λ tm,
    mkTelemetryManager (service_name tm) (prometheus_port tm)
                       (<[metric := instrument]> (metrics tm)) (_meter tm)).

(** ** Methods of [TelemetryManager] *)

Definition setup_telemetry (h : Host) : M unit :=
  tm ← get_self;
  let resource := {[ SERVICE_NAME := service_name tm ]} in
  let reader := PrometheusMetricReader in
  let provider := mkMeterProvider resource [reader] in
  set_meter_provider provider ;;
  try_except_OSError
    (start_http_server h (prometheus_port tm))
    (λ errno,
       if decide (errno = 48)
       then LOG_warning ("Prometheus HTTP server already running on port "
                         ++ pretty (prometheus_port tm))
       else raise (OSError errno)) ;;
  meter ← get_meter h (service_name tm);
  set_self (λ tm,
    mkTelemetryManager (service_name tm) (prometheus_port tm) (metrics tm) (Some meter)).

(** [if not self._meter]: the handle is [None] until [setup_telemetry] has
    stored a meter, and a meter object is truthy.  Each loop visits the
    members of its enum in definition order; the right-hand side of the
    assignment is evaluated before the dict is written. *)
Definition setup_metrics : M unit :=
  tm ← get_self;
  match _meter tm with
  | None => raise (RuntimeError "Call setup_telemetry() before setup_metrics()")
  | Some meter =>
      for_each CounterMetricName_members (λ metric,
        description ← lift (Counter_name.get_description metric);
        c ← lift (create_counter meter (Counter_name.get_metric_name metric) "1" description);
        metrics_setitem (CounterKey metric) (ICounter c)) ;;
      for_each HistogramMetricName_members (λ metric,
        description ← lift (Histogram_name.get_description metric);
        c ← lift (create_histogram meter (Histogram_name.get_metric_name metric) "ms" description);
        metrics_setitem (HistogramKey metric) (IHistogram c)) ;;
      for_each GaugeMetricName_members (λ metric,
        description ← lift (Gauge_name.get_description metric);
        c ← lift (create_gauge meter (Gauge_name.get_metric_name metric) "1" description);
        metrics_setitem (GaugeKey metric) (IGauge c))
  end.

(** The three record operations.  The parameter annotations are not enforced
    by Python, so [metric] ranges over every key the dict can hold. *)
Definition not_initialized (metric : MetricName) : exn :=
  KeyError ("Metric " ++ str metric ++ " not initialized").

Definition increment_counter_metric
    (metric : MetricName) (value : number) (attributes : Attributes) : M unit :=
  tm ← get_self;
  match metrics tm !! metric with
  | None => raise (not_initialized metric)
  | Some instrument =>
      add ← lift (getattr_add instrument);
      metrics_setitem metric (add value attributes)
  end.

Definition record_histogram_metric
    (metric : MetricName) (value : number) (attributes : Attributes) : M unit :=
  tm ← get_self;
  match metrics tm !! metric with
  | None => raise (not_initialized metric)
  | Some instrument =>
      record ← lift (getattr_record instrument);
      metrics_setitem metric (record value attributes)
  end.

Definition set_gauge_metric
    (metric : MetricName) (value : number) (attributes : Attributes) : M unit :=
  tm ← get_self;
  match metrics tm !! metric with
  | None => raise (not_initialized metric)
  | Some instrument =>
      set ← lift (getattr_set instrument);
      metrics_setitem metric (set value attributes)
  end.

(** The default of [increment_counter_metric]'s [value] parameter. *)
Definition default_increment : number := PyInt 1.

(** The record operations as one family, for statements about all three. *)
Inductive RecordOp : Type := Increment | Record_ | Set_.

Definition record_op (op : RecordOp) : MetricName → number → Attributes → M unit :=
  match op with
  | Increment => increment_counter_metric
  | Record_ => record_histogram_metric
  | Set_ => set_gauge_metric
  end.

Definition op_kind (op : RecordOp) : Kind :=
  match op with
  | Increment => KCounter
  | Record_ => KHistogram
  | Set_ => KGauge
  end.

Definition op_method (op : RecordOp) : string :=
  match op with
  | Increment => "add"
  | Record_ => "record"
  | Set_ => "set"
  end.

(** ** Module level: the global instance *)

(** [telemetry_manager = TelemetryManager()], then the two setup calls, in
    a process whose SDK state is [w]. *)
Definition import_module (h : Host) (w : World) : result unit * State :=
  let telemetry_manager := __init__ default_service_name default_prometheus_port in
  (setup_telemetry h ;; setup_metrics) (mkState telemetry_manager w).

(** ** Concrete surroundings *)

(** A meter whose factories always succeed and return a fresh instrument. *)
Definition sdk_meter : Meter :=
  {| create_counter := λ name unit description, Ok (mkInstr name unit description []);
     create_histogram := λ name unit description, Ok (mkInstr name unit description []);
     create_gauge := λ name unit description, Ok (mkInstr name unit description []) |}.

(** A host on which every port can be bound. *)
Definition free_host (p : Platform) : Host :=
  {| platform := p;
     start_http_server_outcome := λ _, None;
     get_meter_outcome := λ _, sdk_meter |}.

(** A host on which every port is taken: binding fails with the platform's
    [EADDRINUSE]. *)
Definition busy_host (p : Platform) : Host :=
  {| platform := p;
     start_http_server_outcome := λ _, Some (OSError (EADDRINUSE p));
     get_meter_outcome := λ _, sdk_meter |}.

Definition fresh_world : World :=
  {| meter_provider := None; http_servers := []; LOG := [] |}.

Definition fresh_state : State :=
  mkState (__init__ default_service_name default_prometheus_port) fresh_world.

(** The state in which an importer finds the module on a host with a free
    port. *)
Definition ready_state : State := (import_module (free_host Linux) fresh_world).2.

(** A meter whose gauge factory raises while the other two work. *)
Definition failing_gauge_meter : Meter :=
  {| create_counter := λ name unit description, Ok (mkInstr name unit description []);
     create_histogram := λ name unit description, Ok (mkInstr name unit description []);
     create_gauge := λ name _ _, Raise (Exception ("cannot create " ++ name)) |}.

(** What [setup_metrics] asks of the meter for one identity, and the
    insertion of the answer into the registry. *)
Definition create (meter : Meter) (k : MetricName) : result Instrument :=
  match k with
  | CounterKey metric =>
      match Counter_name.get_description metric with
      | Ok description =>
          match create_counter meter (Counter_name.get_metric_name metric) "1" description with
          | Ok c => Ok (ICounter c)
          | Raise e => Raise e
          end
      | Raise e => Raise e
      end
  | HistogramKey metric =>
      match Histogram_name.get_description metric with
      | Ok description =>
          match create_histogram meter (Histogram_name.get_metric_name metric) "ms" description with
          | Ok c => Ok (IHistogram c)
          | Raise e => Raise e
          end
      | Raise e => Raise e
      end
  | GaugeKey metric =>
      match Gauge_name.get_description metric with
      | Ok description =>
          match create_gauge meter (Gauge_name.get_metric_name metric) "1" description with
          | Ok c => Ok (IGauge c)
          | Raise e => Raise e
          end
      | Raise e => Raise e
      end
  end.

Definition install (meter : Meter) (k : MetricName) : M unit :=
  i ← lift (create meter k); metrics_setitem k i.

(** The state [s] with its manager's [metrics] replaced. *)
Definition with_metrics (s : State) (reg : gmap MetricName Instrument) : State :=
  mkState (mkTelemetryManager (service_name (self s)) (prometheus_port (self s))
                              reg (_meter (self s)))
          (world s).

(** A manager that has its meter but no instruments yet. *)
Definition metered_state (meter : Meter) : State :=
  mkState (mkTelemetryManager default_service_name default_prometheus_port ∅ (Some meter))
          fresh_world.

(** The registry holds, for every identity of the catalog, an instrument of
    the identity's kind. *)
Definition registry_populated (s : State) : Prop :=
  ∀ k : MetricName, ∃ i : Instrument,
    metrics (self s) !! k = Some i ∧ instrument_kind i = kind_of k.

(** The instrument after its own recording method took one measurement. *)
Definition take_measurement (i : Instrument) (v : number) (a : Attributes) : Instrument :=
  match i with
  | ICounter c => ICounter (consume c v a)
  | IHistogram h => IHistogram (consume h v a)
  | IGauge g => IGauge (consume g v a)
  end.

(** The provider that [setup_telemetry] builds for a manager. *)
Definition provider_for (tm : TelemetryManager) : MeterProvider :=
  mkMeterProvider {[ SERVICE_NAME := service_name tm ]} [PrometheusMetricReader].

(** * Properties *)

Ltac unfold_M :=
  unfold mbind, mret, M_bind, M_ret, raise, lift, get_self, set_self, set_world in *.

Lemma bind_run {A B : Type} (m : M A) (f : A → M B) (s : State) :
  (m ≫= f) s
  = match m s with
    | (Ok a, s') => f a s'
    | (Raise e, s') => (Raise e, s')
    end.
Proof. reflexivity. Qed.

(** ** The model on concrete inputs *)

Example get_metric_name_REQUEST :
  get_metric_name (CounterKey REQUEST) = "memobase_server_requests_total".
Proof. reflexivity. Qed.

Example get_description_LLM_LATENCY_MS :
  get_description (HistogramKey LLM_LATENCY_MS) = Ok "Latency of the LLM in milliseconds".
Proof. by vm_compute. Qed.

Example import_on_free_port :
  (import_module (free_host Linux) fresh_world).1 = Ok ()
  ∧ http_servers (world ready_state) = [9464]
  ∧ LOG (world ready_state) = []
  ∧ size (metrics (self ready_state)) = 9%nat
  ∧ metrics (self ready_state) !! GaugeKey INPUT_TOKEN_COUNT
    = Some (IGauge (mkInstr "memobase_server_input_token_count_per_call" "1"
                            "Number of input tokens per call" [])).
Proof. by vm_compute. Qed.

Example import_on_busy_port_Darwin :
  (import_module (busy_host Darwin) fresh_world).1 = Ok ()
  ∧ http_servers (world (import_module (busy_host Darwin) fresh_world).2) = []
  ∧ LOG (world (import_module (busy_host Darwin) fresh_world).2)
    = [warning "Prometheus HTTP server already running on port 9464"]
  ∧ size (metrics (self (import_module (busy_host Darwin) fresh_world).2)) = 9%nat.
Proof. by vm_compute. Qed.

Example import_on_busy_port_Linux :
  (import_module (busy_host Linux) fresh_world).1 = Raise (OSError 98)
  ∧ metrics (self (import_module (busy_host Linux) fresh_world).2) = ∅.
Proof. by vm_compute. Qed.

Example increment_after_import :
  metrics (self (increment_counter_metric (CounterKey REQUEST) default_increment None
                   ready_state).2) !! CounterKey REQUEST
  = Some (ICounter (mkInstr "memobase_server_requests_total" "1"
                            "Total number of requests to the memobase server"
                            [mkMeasurement (PyInt 1) None])).
Proof. by vm_compute. Qed.

Example setup_metrics_failing_gauge :
  size (metrics (self (setup_metrics (metered_state failing_gauge_meter)).2)) = 7%nat.
Proof. by vm_compute. Qed.

(** ** The catalog *)

Lemma catalog_complete (k : MetricName) : k ∈ catalog.
Proof. destruct k as [[]|[]|[]]; by apply (bool_decide_unpack _). Qed.

Lemma catalog_NoDup : NoDup catalog.
Proof. by apply (bool_decide_unpack _). Qed.

Lemma get_metric_name_prefix (k : MetricName) :
  get_metric_name k = "memobase_server_" ++ value k.
Proof. by destruct k. Qed.

(** C7: the catalog lookups are total.  For every member of every metric
    enum, [get_metric_name] is the member's value behind the prefix
    "memobase_server_", and [get_description] returns a description without
    raising. *)
Theorem catalog_lookup_total (k : MetricName) :
  get_metric_name k = "memobase_server_" ++ value k
  ∧ ∃ description : string, get_description k = Ok description.
Proof.
  split.
  - apply get_metric_name_prefix.
  - destruct k as [[]|[]|[]]; eexists; vm_compute; reflexivity.
Qed.

Lemma string_app_inj (p s1 s2 : string) : p ++ s1 = p ++ s2 → s1 = s2.
Proof. induction p as [|c p IH]; simpl; [done | intros [= E]; auto]. Qed.

Lemma value_inj (k1 k2 : MetricName) : value k1 = value k2 → k1 = k2.
Proof.
  destruct k1 as [[]|[]|[]], k2 as [[]|[]|[]]; simpl; intros E;
    first [reflexivity | discriminate E].
Qed.

(** C6: wire names are unique across the whole catalog.  Two distinct
    identities, of the same enum or of different enums, never have the same
    [get_metric_name]. *)
Theorem wire_names_unique (k1 k2 : MetricName) :
  k1 ≠ k2 → get_metric_name k1 ≠ get_metric_name k2.
Proof.
  intros Hne E. apply Hne, value_inj.
  rewrite !get_metric_name_prefix in E.
  by apply string_app_inj in E.
Qed.

Lemma wire_names_unique_witness :
  CounterKey LLM_TOKENS_INPUT ≠ GaugeKey INPUT_TOKEN_COUNT
  ∧ get_metric_name (CounterKey LLM_TOKENS_INPUT)
    ≠ get_metric_name (GaugeKey INPUT_TOKEN_COUNT).
Proof.
  split; [discriminate |].
  apply (wire_names_unique (CounterKey LLM_TOKENS_INPUT) (GaugeKey INPUT_TOKEN_COUNT)).
  discriminate.
Defined.

(** ** Record operations that fail *)

Lemma record_op_absent (op : RecordOp) (metric : MetricName)
    (v : number) (a : Attributes) (s : State) :
  metrics (self s) !! metric = None →
  record_op op metric v a s = (Raise (not_initialized metric), s).
Proof.
  intros Habsent.
  destruct op; simpl;
    unfold increment_counter_metric, record_histogram_metric, set_gauge_metric;
    unfold_M; by rewrite Habsent.
Qed.

Lemma record_op_wrong_class (op : RecordOp) (metric : MetricName)
    (v : number) (a : Attributes) (s : State) (i : Instrument) :
  metrics (self s) !! metric = Some i →
  instrument_kind i ≠ op_kind op →
  record_op op metric v a s = (Raise (AttributeError (class_name i) (op_method op)), s).
Proof.
  intros Hi Hkind.
  destruct op; simpl;
    unfold increment_counter_metric, record_histogram_metric, set_gauge_metric;
    unfold_M; rewrite Hi; destruct i; simpl in *; congruence.
Qed.

Lemma record_op_right_class (op : RecordOp) (metric : MetricName)
    (v : number) (a : Attributes) (s : State) (i : Instrument) :
  metrics (self s) !! metric = Some i →
  instrument_kind i = op_kind op →
  ∃ i' : Instrument,
    instrument_kind i' = instrument_kind i
    ∧ measurements_of i' = (measurements_of i ++ [mkMeasurement v a])%list
    ∧ record_op op metric v a s
      = (Ok (),
         mkState (mkTelemetryManager (service_name (self s)) (prometheus_port (self s))
                                     (<[metric := i']> (metrics (self s)))
                                     (_meter (self s)))
                 (world s)).
Proof.
  intros Hi Hkind.
  destruct op; simpl;
    unfold increment_counter_metric, record_histogram_metric, set_gauge_metric,
           metrics_setitem;
    unfold_M; rewrite Hi; destruct i; simpl in *; try discriminate;
    eexists; (split; [|split]); try reflexivity; reflexivity.
Qed.

(** C9: a record operation on an identity that is absent from the registry
    raises the [KeyError] whose message names the metric, and leaves the
    manager (metrics mapping, meter handle, service name, port) and the rest
    of the state exactly as they were. *)
Theorem record_op_absent_identity (op : RecordOp) (metric : MetricName)
    (v : number) (a : Attributes) (s : State) :
  metrics (self s) !! metric = None →
  record_op op metric v a s
  = (Raise (KeyError ("Metric " ++ str metric ++ " not initialized")), s).
Proof. apply record_op_absent. Qed.

Lemma record_op_absent_identity_witness :
  metrics (self fresh_state) !! GaugeKey OUTPUT_TOKEN_COUNT = None
  ∧ set_gauge_metric (GaugeKey OUTPUT_TOKEN_COUNT) (PyFloat (7 # 2)) None fresh_state
    = (Raise (KeyError "Metric GaugeMetricName.OUTPUT_TOKEN_COUNT not initialized"),
       fresh_state).
Proof.
  split; [reflexivity |].
  apply (record_op_absent_identity Set_ (GaugeKey OUTPUT_TOKEN_COUNT)
           (PyFloat (7 # 2)) None fresh_state).
  reflexivity.
Defined.

(** ** [setup_metrics] *)

Lemma setup_metrics_no_meter (s : State) :
  _meter (self s) = None →
  setup_metrics s
  = (Raise (RuntimeError "Call setup_telemetry() before setup_metrics()"), s).
Proof. intros Hnone. unfold setup_metrics. rewrite bind_run. unfold get_self. by rewrite Hnone. Qed.

(** C5: while the meter handle is unset, [setup_metrics] raises the
    [RuntimeError] that asks for [setup_telemetry] first, and the registry,
    like the rest of the state, is unchanged. *)
Theorem setup_metrics_without_meter (s : State) :
  _meter (self s) = None →
  setup_metrics s
  = (Raise (RuntimeError "Call setup_telemetry() before setup_metrics()"), s).
Proof. apply setup_metrics_no_meter. Qed.

Lemma setup_metrics_without_meter_witness :
  _meter (self fresh_state) = None
  ∧ setup_metrics fresh_state
    = (Raise (RuntimeError "Call setup_telemetry() before setup_metrics()"), fresh_state).
Proof.
  split; [reflexivity |].
  apply (setup_metrics_without_meter fresh_state). reflexivity.
Defined.

Lemma for_each_ext {A : Type} (f g : A → M unit) (xs : list A) (s : State) :
  (∀ x s0, f x s0 = g x s0) → for_each xs f s = for_each xs g s.
Proof.
  intros Hfg. revert s. induction xs as [|x xs IH]; intros s; simpl; [done |].
  unfold_M. rewrite Hfg. destruct (g x s) as [[[]|e] s1]; [apply IH | done].
Qed.

Lemma for_each_fmap {A B : Type} (g : A → B) (f : B → M unit) (xs : list A) (s : State) :
  for_each (g <$> xs) f s = for_each xs (λ x, f (g x)) s.
Proof.
  revert s. induction xs as [|x xs IH]; intros s; simpl; [done |].
  unfold_M. destruct (f (g x) s) as [[[]|e] s1]; [apply IH | done].
Qed.

Lemma for_each_app {A : Type} (f : A → M unit) (xs ys : list A) (s : State) :
  for_each (xs ++ ys) f s = (for_each xs f ;; for_each ys f) s.
Proof.
  revert s. induction xs as [|x xs IH]; intros s; simpl.
  - done.
  - unfold_M. destruct (f x s) as [[[]|e] s1]; [|done].
    rewrite IH. by unfold_M.
Qed.

Lemma install_counter (meter : Meter) (m : CounterMetricName) (s : State) :
  (description ← lift (Counter_name.get_description m);
   c ← lift (create_counter meter (Counter_name.get_metric_name m) "1" description);
   metrics_setitem (CounterKey m) (ICounter c)) s
  = install meter (CounterKey m) s.
Proof.
  unfold install, create. unfold_M.
  destruct (Counter_name.get_description m); [|done].
  by destruct (create_counter meter _ _ _).
Qed.

Lemma install_histogram (meter : Meter) (m : HistogramMetricName) (s : State) :
  (description ← lift (Histogram_name.get_description m);
   c ← lift (create_histogram meter (Histogram_name.get_metric_name m) "ms" description);
   metrics_setitem (HistogramKey m) (IHistogram c)) s
  = install meter (HistogramKey m) s.
Proof.
  unfold install, create. unfold_M.
  destruct (Histogram_name.get_description m); [|done].
  by destruct (create_histogram meter _ _ _).
Qed.

Lemma install_gauge (meter : Meter) (m : GaugeMetricName) (s : State) :
  (description ← lift (Gauge_name.get_description m);
   c ← lift (create_gauge meter (Gauge_name.get_metric_name m) "1" description);
   metrics_setitem (GaugeKey m) (IGauge c)) s
  = install meter (GaugeKey m) s.
Proof.
  unfold install, create. unfold_M.
  destruct (Gauge_name.get_description m); [|done].
  by destruct (create_gauge meter _ _ _).
Qed.

(** With a meter at hand, [setup_metrics] is one pass over the catalog. *)
Lemma setup_metrics_with_meter (meter : Meter) (s : State) :
  _meter (self s) = Some meter →
  setup_metrics s = for_each catalog (install meter) s.
Proof.
  intros Hmeter. unfold setup_metrics, catalog.
  rewrite bind_run. unfold get_self. rewrite Hmeter.
  rewrite for_each_app, !bind_run.
  rewrite (for_each_fmap CounterKey (install meter)).
  rewrite (for_each_ext _ _ _ _ (install_counter meter)).
  destruct (for_each _ _ s) as [[[]|e] s1]; [|done].
  rewrite for_each_app, !bind_run, (for_each_fmap HistogramKey (install meter)).
  rewrite (for_each_ext _ _ _ _ (install_histogram meter)).
  destruct (for_each _ _ s1) as [[[]|e] s2]; [|done].
  rewrite (for_each_fmap GaugeKey (install meter)).
  apply for_each_ext, install_gauge.
Qed.

Lemma with_metrics_same (s : State) : with_metrics s (metrics (self s)) = s.
Proof. by destruct s as [[] ?]. Qed.

Lemma create_kind (meter : Meter) (k : MetricName) (i : Instrument) :
  create meter k = Ok i → instrument_kind i = kind_of k.
Proof.
  destruct k as [m|m|m]; unfold create; simpl.
  - destruct (Counter_name.get_description m); [|done].
    destruct (create_counter meter _ _ _); [|done]. by intros [= <-].
  - destruct (Histogram_name.get_description m); [|done].
    destruct (create_histogram meter _ _ _); [|done]. by intros [= <-].
  - destruct (Gauge_name.get_description m); [|done].
    destruct (create_gauge meter _ _ _); [|done]. by intros [= <-].
Qed.

Lemma for_each_install_cons (meter : Meter) (k : MetricName) (ks : list MetricName)
    (s : State) :
  for_each (k :: ks) (install meter) s
  = match create meter k with
    | Ok i => for_each ks (install meter) (with_metrics s (<[k := i]> (metrics (self s))))
    | Raise e => (Raise e, s)
    end.
Proof.
  simpl. rewrite bind_run. unfold install at 1. rewrite bind_run. unfold lift.
  by destruct (create meter k).
Qed.

(** One pass of [install] over a list of identities stops at the first
    creation that raises.  The [n] identities before it are bound to the
    instruments created for them, the other entries of the registry and the
    other fields of the state are as before. *)
Lemma for_each_install (meter : Meter) (ks : list MetricName) (s : State) :
  ∃ (n : nat) (reg' : gmap MetricName Instrument),
    (for_each ks (install meter) s).2 = with_metrics s reg'
    ∧ (∀ k, k ∈ take n ks → ∃ i, create meter k = Ok i ∧ reg' !! k = Some i)
    ∧ (∀ k, k ∉ take n ks → reg' !! k = metrics (self s) !! k)
    ∧ match (for_each ks (install meter) s).1 with
      | Ok _ => n = length ks
      | Raise e => ∃ k, ks !! n = Some k ∧ create meter k = Raise e
      end.
Proof.
  revert s. induction ks as [|k ks IH]; intros s.
  - exists 0%nat, (metrics (self s)). simpl.
    rewrite with_metrics_same. split_and!; [done | | done | done].
    intros k Hk. by apply elem_of_nil in Hk.
  - rewrite for_each_install_cons.
    destruct (create meter k) as [i|e] eqn:Hcreate.
    + set (s1 := with_metrics s _).
      destruct (IH s1) as (n & reg' & Hs & Hin & Hout & Hres).
      exists (S n), reg'. split_and!.
      * by rewrite Hs.
      * intros k0 Hk0.
        destruct (decide (k0 ∈ take n ks)) as [Hn|Hn]; [by apply Hin |].
        apply elem_of_cons in Hk0 as [->|?]; [|done].
        exists i. split; [done |].
        rewrite (Hout _ Hn). subst s1. simpl. apply lookup_insert_eq.
      * intros k0 Hk0. apply not_elem_of_cons in Hk0 as [Hne Hn].
        rewrite (Hout _ Hn). subst s1. simpl. by apply lookup_insert_ne.
      * revert Hres. destruct (for_each ks (install meter) s1).1; [by intros -> | done].
    + exists 0%nat, (metrics (self s)). simpl.
      rewrite with_metrics_same. split_and!; [done | | done | by exists k].
      intros k0 Hk0. by apply elem_of_nil in Hk0.
Qed.

(** What [setup_metrics] leaves behind, whatever its outcome: the first [n]
    identities of the catalog are bound to instruments of their kind, nothing
    else in the state has changed, and [n] falls short of the catalog exactly
    when the call raised. *)
Lemma setup_metrics_run (s : State) :
  ∃ (n : nat) (reg' : gmap MetricName Instrument),
    (setup_metrics s).2 = with_metrics s reg'
    ∧ (∀ k, k ∈ take n catalog →
         ∃ i, reg' !! k = Some i ∧ instrument_kind i = kind_of k)
    ∧ (∀ k, k ∉ take n catalog → reg' !! k = metrics (self s) !! k)
    ∧ match (setup_metrics s).1 with
      | Ok _ => n = length catalog
      | Raise e =>
          (_meter (self s) = None ∧ n = 0%nat)
          ∨ (∃ meter k, _meter (self s) = Some meter
                        ∧ catalog !! n = Some k ∧ create meter k = Raise e)
      end.
Proof.
  destruct (_meter (self s)) as [meter|] eqn:Hmeter.
  - rewrite (setup_metrics_with_meter meter s Hmeter).
    destruct (for_each_install meter catalog s) as (n & reg' & Hs & Hin & Hout & Hres).
    exists n, reg'. split_and!; [done | | done |].
    + intros k Hk. destruct (Hin k Hk) as (i & Hcreate & Hi).
      exists i. split; [done | by eapply create_kind].
    + destruct (for_each catalog (install meter) s).1 as [[]|e]; [done |].
      right. destruct Hres as (k & ? & ?). by exists meter, k.
  - rewrite (setup_metrics_no_meter s Hmeter).
    exists 0%nat, (metrics (self s)). simpl. rewrite with_metrics_same.
    split_and!; [done | | done | by left].
    intros k Hk. by apply elem_of_nil in Hk.
Qed.

Lemma setup_metrics_ok_populated (s : State) :
  (setup_metrics s).1 = Ok () → registry_populated (setup_metrics s).2.
Proof.
  intros Hok.
  destruct (setup_metrics_run s) as (n & reg' & Hs & Hin & _ & Hres).
  rewrite Hok in Hres. subst n. rewrite firstn_all in Hin.
  intros k. rewrite Hs. simpl. apply Hin, catalog_complete.
Qed.

(** C4: after a successful [setup_metrics], every identity of the catalog is
    bound in the registry to one instrument of the matching kind, and the
    keys of the registry are exactly the identities of the catalog. *)
Theorem setup_metrics_populates (s s' : State) :
  setup_metrics s = (Ok (), s') →
  (∀ k : MetricName, k ∈ catalog →
     ∃ i : Instrument, metrics (self s') !! k = Some i ∧ instrument_kind i = kind_of k)
  ∧ dom (metrics (self s')) = list_to_set catalog.
Proof.
  intros Hrun.
  assert (Hpop : registry_populated s').
  { replace s' with (setup_metrics s).2 by by rewrite Hrun.
    apply setup_metrics_ok_populated. by rewrite Hrun. }
  split.
  - intros k _. apply Hpop.
  - apply set_eq. intros k. rewrite elem_of_dom, elem_of_list_to_set. split.
    + intros _. apply catalog_complete.
    + intros _. destruct (Hpop k) as (i & -> & _). by eexists.
Qed.

Lemma setup_metrics_populates_witness :
  setup_metrics (metered_state sdk_meter)
  = (Ok (), (setup_metrics (metered_state sdk_meter)).2)
  ∧ (∀ k : MetricName, k ∈ catalog →
       ∃ i : Instrument,
         metrics (self (setup_metrics (metered_state sdk_meter)).2) !! k = Some i
         ∧ instrument_kind i = kind_of k)
  ∧ dom (metrics (self (setup_metrics (metered_state sdk_meter)).2)) = list_to_set catalog.
Proof.
  split; [by vm_compute |].
  apply (setup_metrics_populates (metered_state sdk_meter)).
  by vm_compute.
Defined.

(** C3, as the code has it: [setup_metrics] either binds an instrument to
    every identity of the catalog and returns, or raises.  When it raises at
    the meter guard the registry is as it was; when it raises because a
    creation failed, the identities that precede the failing one in catalog
    order are already bound to their new instruments, and the rest of the
    registry is as it was. *)
Theorem setup_metrics_outcome (s : State) :
  ∃ (n : nat) (reg' : gmap MetricName Instrument),
    (setup_metrics s).2 = with_metrics s reg'
    ∧ (∀ k, k ∈ take n catalog →
         ∃ i, reg' !! k = Some i ∧ instrument_kind i = kind_of k)
    ∧ (∀ k, k ∉ take n catalog → reg' !! k = metrics (self s) !! k)
    ∧ match (setup_metrics s).1 with
      | Ok _ => n = length catalog
      | Raise e =>
          (_meter (self s) = None ∧ n = 0%nat)
          ∨ (∃ meter k, _meter (self s) = Some meter
                        ∧ catalog !! n = Some k ∧ create meter k = Raise e)
      end.
Proof. apply setup_metrics_run. Qed.

(** C3 as stated fails: with a meter whose gauge factory raises, the call
    aborts although the registry it leaves is neither complete nor the one
    it started from. *)
Lemma setup_metrics_half_populated :
  (setup_metrics (metered_state failing_gauge_meter)).1
  = Raise (Exception "cannot create memobase_server_input_token_count_per_call")
  ∧ ¬ ((∀ k : MetricName, k ∈ catalog →
          is_Some (metrics (self (setup_metrics (metered_state failing_gauge_meter)).2) !! k))
       ∨ metrics (self (setup_metrics (metered_state failing_gauge_meter)).2)
         = metrics (self (metered_state failing_gauge_meter))).
Proof.
  split; [by vm_compute |].
  intros [Hall | Hsame].
  - specialize (Hall (GaugeKey INPUT_TOKEN_COUNT) (catalog_complete _)).
    vm_compute in Hall. by destruct Hall.
  - apply (f_equal (λ reg : gmap MetricName Instrument, reg !! CounterKey REQUEST)) in Hsame.
    vm_compute in Hsame. discriminate Hsame.
Qed.

(** ** [setup_telemetry] *)

(** The outcome of [setup_telemetry], by what [start_http_server] does.  The
    service name, the port and the registry are never touched; the meter
    handle is set only when the call returns. *)
Lemma setup_telemetry_run (h : Host) (s : State) :
  service_name (self (setup_telemetry h s).2) = service_name (self s)
  ∧ prometheus_port (self (setup_telemetry h s).2) = prometheus_port (self s)
  ∧ metrics (self (setup_telemetry h s).2) = metrics (self s)
  ∧ match start_http_server_outcome h (prometheus_port (self s)) with
    | None =>
        (setup_telemetry h s).1 = Ok ()
        ∧ _meter (self (setup_telemetry h s).2)
          = Some (get_meter_outcome h (service_name (self s)))
        ∧ LOG (world (setup_telemetry h s).2) = LOG (world s)
        ∧ http_servers (world (setup_telemetry h s).2)
          = (http_servers (world s) ++ [prometheus_port (self s)])%list
    | Some e =>
        http_servers (world (setup_telemetry h s).2) = http_servers (world s)
        ∧ if decide (e = OSError 48)
          then (setup_telemetry h s).1 = Ok ()
               ∧ _meter (self (setup_telemetry h s).2)
                 = Some (get_meter_outcome h (service_name (self s)))
               ∧ LOG (world (setup_telemetry h s).2)
                 = (LOG (world s)
                    ++ [warning ("Prometheus HTTP server already running on port "
                                 ++ pretty (prometheus_port (self s)))])%list
          else (setup_telemetry h s).1 = Raise e
               ∧ _meter (self (setup_telemetry h s).2) = _meter (self s)
               ∧ LOG (world (setup_telemetry h s).2) = LOG (world s)
    end.
Proof.
  unfold setup_telemetry, try_except_OSError, start_http_server, set_meter_provider,
         LOG_warning, get_meter.
  rewrite !bind_run. unfold get_self, set_world. rewrite !bind_run.
  destruct (start_http_server_outcome h (prometheus_port (self s))) as [e|].
  - destruct e as [errno| | | |]; unfold raise; simpl.
    2-5: by split_and!.
    destruct (decide (errno = 48)) as [->|Hne]; simpl.
    + by split_and!.
    + rewrite decide_False by congruence. by split_and!.
  - by simpl.
Qed.

(** Errno 48 is swallowed with a warning. *)
Lemma setup_telemetry_errno_48 (h : Host) (s : State) :
  start_http_server_outcome h (prometheus_port (self s)) = Some (OSError 48) →
  (setup_telemetry h s).1 = Ok ()
  ∧ LOG (world (setup_telemetry h s).2)
    = (LOG (world s)
       ++ [warning ("Prometheus HTTP server already running on port "
                    ++ pretty (prometheus_port (self s)))])%list.
Proof.
  intros Hbind. pose proof (setup_telemetry_run h s) as (_ & _ & _ & Hrun).
  rewrite Hbind, decide_True in Hrun by done.
  destruct Hrun as (_ & Hok & _ & Hlog). by split.
Qed.

(** Every other exception of [start_http_server] reaches the caller, and the
    meter handle stays as it was. *)
Lemma setup_telemetry_propagates (h : Host) (s : State) (e : exn) :
  start_http_server_outcome h (prometheus_port (self s)) = Some e →
  e ≠ OSError 48 →
  (setup_telemetry h s).1 = Raise e
  ∧ _meter (self (setup_telemetry h s).2) = _meter (self s)
  ∧ LOG (world (setup_telemetry h s).2) = LOG (world s).
Proof.
  intros Hbind Hne. pose proof (setup_telemetry_run h s) as (_ & _ & _ & Hrun).
  rewrite Hbind, decide_False in Hrun by done.
  by destruct Hrun as (_ & Hraise & Hmeter & Hlog).
Qed.

(** An address in use is tolerated on the platform whose [EADDRINUSE] is 48
    and on no other. *)
Lemma setup_telemetry_address_in_use (h : Host) (s : State) :
  start_http_server_outcome h (prometheus_port (self s))
  = Some (OSError (EADDRINUSE (platform h))) →
  (setup_telemetry h s).1 = Ok () ↔ platform h = Darwin.
Proof.
  intros Hbind. split.
  - intros Hok. destruct (platform h) eqn:Hp; [| done |].
    + destruct (setup_telemetry_propagates h s _ Hbind) as (Hr & _); [done |].
      congruence.
    + destruct (setup_telemetry_propagates h s _ Hbind) as (Hr & _); [done |].
      congruence.
  - intros Hp. rewrite Hp in Hbind. by apply setup_telemetry_errno_48.
Qed.

(** C1 on a Linux host: the port is taken, [start_http_server] raises
    [OSError] with [errno.EADDRINUSE], which is 98 there; the handler
    compares with 48, so the error leaves [setup_telemetry], no warning is
    logged and the meter handle stays unset. *)
Theorem setup_telemetry_address_in_use_Linux :
  start_http_server_outcome (busy_host Linux) (prometheus_port (self fresh_state))
  = Some (OSError (EADDRINUSE Linux))
  ∧ (setup_telemetry (busy_host Linux) fresh_state).1 = Raise (OSError 98)
  ∧ LOG (world (setup_telemetry (busy_host Linux) fresh_state).2) = []
  ∧ _meter (self (setup_telemetry (busy_host Linux) fresh_state).2) = None.
Proof. by vm_compute. Qed.

(** ** Record operations on a populated registry *)

Lemma record_op_wrong_kind (op : RecordOp) (metric : MetricName)
    (v : number) (a : Attributes) (s : State) :
  registry_populated s →
  kind_of metric ≠ op_kind op →
  record_op op metric v a s
  = (Raise (AttributeError (Kind_class_name (kind_of metric)) (op_method op)), s).
Proof.
  intros Hpop Hkind. destruct (Hpop metric) as (i & Hi & Hik).
  rewrite (record_op_wrong_class op metric v a s i Hi) by congruence.
  unfold class_name. by rewrite Hik.
Qed.

Lemma record_op_matching_kind (op : RecordOp) (metric : MetricName)
    (v : number) (a : Attributes) (s : State) :
  registry_populated s →
  kind_of metric = op_kind op →
  (record_op op metric v a s).1 = Ok ().
Proof.
  intros Hpop Hkind. destruct (Hpop metric) as (i & Hi & Hik).
  destruct (record_op_right_class op metric v a s i Hi) as (i' & _ & _ & ->);
    [congruence | done].
Qed.

(** C2, as the code has it: a record operation called while the registry is
    still empty raises the [KeyError] "Metric ... not initialized"; called on
    a populated registry with an identity of another kind, it finds the
    identity, and the [AttributeError] of the instrument, which has no such
    method, is what the caller gets.  In both cases the state, instruments
    included, is as before. *)
Theorem record_op_failure_modes (op : RecordOp) (metric : MetricName)
    (v : number) (a : Attributes) (s : State) :
  (metrics (self s) = ∅ →
     record_op op metric v a s
     = (Raise (KeyError ("Metric " ++ str metric ++ " not initialized")), s))
  ∧ (registry_populated s → kind_of metric ≠ op_kind op →
       record_op op metric v a s
       = (Raise (AttributeError (Kind_class_name (kind_of metric)) (op_method op)), s)).
Proof.
  split.
  - intros Hempty. apply record_op_absent. by rewrite Hempty, lookup_empty.
  - apply record_op_wrong_kind.
Qed.

Lemma ready_state_populated : registry_populated ready_state.
Proof.
  unfold ready_state, import_module. rewrite bind_run.
  destruct (setup_telemetry _ _) as [[[]|e] s1] eqn:Htel; [|by vm_compute in Htel].
  apply setup_metrics_ok_populated.
  replace s1 with (setup_telemetry (free_host Linux) fresh_state).2
    by (unfold fresh_state; by rewrite Htel).
  by vm_compute.
Qed.

Lemma record_op_failure_modes_witness :
  (metrics (self fresh_state) = ∅
   ∧ record_histogram_metric (CounterKey REQUEST) (PyFloat (25 # 2)) None fresh_state
     = (Raise (KeyError "Metric CounterMetricName.REQUEST not initialized"), fresh_state))
  ∧ (registry_populated ready_state
     ∧ kind_of (CounterKey REQUEST) ≠ op_kind Record_
     ∧ record_histogram_metric (CounterKey REQUEST) (PyFloat (25 # 2)) None ready_state
       = (Raise (AttributeError "Counter" "record"), ready_state)).
Proof.
  split.
  - split; [reflexivity |].
    apply (proj1 (record_op_failure_modes Record_ (CounterKey REQUEST)
                    (PyFloat (25 # 2)) None fresh_state)).
    reflexivity.
  - split; [apply ready_state_populated |]. split; [discriminate |].
    apply (proj2 (record_op_failure_modes Record_ (CounterKey REQUEST)
                    (PyFloat (25 # 2)) None ready_state)).
    + apply ready_state_populated.
    + discriminate.
Defined.

(** C2 as stated fails: on the registry that the import leaves, the counter
    operation called with a histogram identity does not raise the module's
    [KeyError]; what it raises is the [AttributeError] of looking up [add]
    on a [Histogram]. *)
Lemma wrong_kind_is_not_KeyError :
  (import_module (free_host Linux) fresh_world).1 = Ok ()
  ∧ increment_counter_metric (HistogramKey LLM_LATENCY_MS) default_increment None ready_state
    = (Raise (AttributeError "Histogram" "add"), ready_state)
  ∧ ¬ ∃ msg : string,
        (increment_counter_metric (HistogramKey LLM_LATENCY_MS) default_increment None
           ready_state).1
        = Raise (KeyError msg).
Proof.
  assert (Hrun : increment_counter_metric (HistogramKey LLM_LATENCY_MS) default_increment
                   None ready_state
                 = (Raise (AttributeError "Histogram" "add"), ready_state)).
  { apply (record_op_wrong_kind Increment); [apply ready_state_populated | discriminate]. }
  split; [by vm_compute |]. split; [done |].
  rewrite Hrun. by intros [msg [=]].
Qed.

(** ** Importing the module *)

Lemma setup_metrics_frame (s : State) :
  service_name (self (setup_metrics s).2) = service_name (self s)
  ∧ prometheus_port (self (setup_metrics s).2) = prometheus_port (self s)
  ∧ _meter (self (setup_metrics s).2) = _meter (self s)
  ∧ world (setup_metrics s).2 = world s.
Proof.
  destruct (setup_metrics_run s) as (n & reg' & -> & _). by split_and!.
Qed.

(** C10: importing the module builds the manager with the service name
    "memobase-server" and the port 9464 and runs [setup_telemetry], then
    [setup_metrics], on it.  When the import returns, the registry holds an
    instrument of the matching kind for every identity of the catalog, so
    that a first record call of the matching kind succeeds. *)
Theorem import_module_singleton (h : Host) (w : World) :
  import_module h w
  = (setup_telemetry h ≫= λ _, setup_metrics) (mkState (__init__ "memobase-server" 9464) w)
  ∧ service_name (self (import_module h w).2) = "memobase-server"
  ∧ prometheus_port (self (import_module h w).2) = 9464
  ∧ ((import_module h w).1 = Ok () →
       registry_populated (import_module h w).2
       ∧ ∀ op metric v a,
           kind_of metric = op_kind op →
           (record_op op metric v a (import_module h w).2).1 = Ok ()).
Proof.
  split; [reflexivity |].
  unfold import_module. rewrite bind_run.
  set (s0 := mkState _ w).
  pose proof (setup_telemetry_run h s0) as (Hname & Hport & _).
  destruct (setup_telemetry h s0) as [[[]|e] s1]; simpl in *.
  - pose proof (setup_metrics_frame s1) as (Hname' & Hport' & _).
    split_and!; [by rewrite Hname', Hname | by rewrite Hport', Hport |].
    intros Hok. pose proof (setup_metrics_ok_populated s1 Hok) as Hpop.
    split; [done |]. intros op metric v a Hkind.
    by apply record_op_matching_kind.
  - by split_and!.
Qed.

Lemma import_module_singleton_witness :
  (import_module (free_host Linux) fresh_world).1 = Ok ()
  ∧ registry_populated (import_module (free_host Linux) fresh_world).2
  ∧ (increment_counter_metric (CounterKey REQUEST) default_increment None
       (import_module (free_host Linux) fresh_world).2).1 = Ok ().
Proof.
  assert (Hok : (import_module (free_host Linux) fresh_world).1 = Ok ()) by by vm_compute.
  destruct (import_module_singleton (free_host Linux) fresh_world)
    as (_ & _ & _ & Hready).
  destruct (Hready Hok) as (Hpop & Hrecord).
  split; [exact Hok |]. split; [exact Hpop |].
  apply (Hrecord Increment (CounterKey REQUEST) default_increment None). reflexivity.
Defined.

(** * Further properties of the manager *)

(** ** Record operations that succeed *)

(** The three outcomes of a record operation, by what the registry holds
    for the identity. *)
Lemma record_op_run (op : RecordOp) (metric : MetricName)
    (v : number) (a : Attributes) (s : State) :
  record_op op metric v a s
  = match metrics (self s) !! metric with
    | None => (Raise (not_initialized metric), s)
    | Some i =>
        if decide (instrument_kind i = op_kind op)
        then (Ok (), with_metrics s (<[metric := take_measurement i v a]> (metrics (self s))))
        else (Raise (AttributeError (class_name i) (op_method op)), s)
    end.
Proof.
  destruct (metrics (self s) !! metric) as [i|] eqn:Hi.
  - destruct (decide (instrument_kind i = op_kind op)) as [Hk|Hk].
    + destruct op; simpl;
        unfold increment_counter_metric, record_histogram_metric, set_gauge_metric,
               metrics_setitem;
        unfold_M; rewrite Hi; by destruct i.
    + by apply record_op_wrong_class.
  - by apply record_op_absent.
Qed.

Lemma take_measurement_kind (i : Instrument) (v : number) (a : Attributes) :
  instrument_kind (take_measurement i v a) = instrument_kind i.
Proof. by destruct i. Qed.

Lemma take_measurement_log (i : Instrument) (v : number) (a : Attributes) :
  measurements_of (take_measurement i v a)
  = (measurements_of i ++ [mkMeasurement v a])%list.
Proof. by destruct i. Qed.

(** X1: A record operation of the kind of the stored instrument returns, and the
    instrument under the identity has taken exactly the one measurement
    [(value, attributes)], after those it held, and is still of its kind. *)
Theorem record_op_appends (op : RecordOp) (metric : MetricName)
    (v : number) (a : Attributes) (s : State) (i : Instrument) :
  metrics (self s) !! metric = Some i →
  instrument_kind i = op_kind op →
  (record_op op metric v a s).1 = Ok ()
  ∧ ∃ i' : Instrument,
      metrics (self (record_op op metric v a s).2) !! metric = Some i'
      ∧ instrument_kind i' = instrument_kind i
      ∧ measurements_of i' = (measurements_of i ++ [mkMeasurement v a])%list.
Proof.
  intros Hi Hk. rewrite record_op_run, Hi, decide_True by done. simpl.
  split; [done |]. exists (take_measurement i v a).
  rewrite lookup_insert_eq, take_measurement_kind, take_measurement_log. done.
Qed.

Lemma record_op_appends_witness :
  metrics (self ready_state) !! HistogramKey REQUEST_LATENCY_MS
  = Some (IHistogram (mkInstr "memobase_server_request_latency" "ms"
                              "Latency of the request in milliseconds" []))
  ∧ (record_histogram_metric (HistogramKey REQUEST_LATENCY_MS) (PyFloat (25 # 2)) None
       ready_state).1 = Ok ()
  ∧ ∃ i' : Instrument,
      metrics (self (record_histogram_metric (HistogramKey REQUEST_LATENCY_MS)
                       (PyFloat (25 # 2)) None ready_state).2)
        !! HistogramKey REQUEST_LATENCY_MS = Some i'
      ∧ instrument_kind i' = KHistogram
      ∧ measurements_of i' = [mkMeasurement (PyFloat (25 # 2)) None].
Proof.
  split; [by vm_compute |].
  apply (record_op_appends Record_ (HistogramKey REQUEST_LATENCY_MS) (PyFloat (25 # 2)) None
           ready_state
           (IHistogram (mkInstr "memobase_server_request_latency" "ms"
                                "Latency of the request in milliseconds" []))).
  - by vm_compute.
  - reflexivity.
Defined.

Lemma record_op_frame_aux (op : RecordOp) (metric : MetricName)
    (v : number) (a : Attributes) (s : State) :
  service_name (self (record_op op metric v a s).2) = service_name (self s)
  ∧ prometheus_port (self (record_op op metric v a s).2) = prometheus_port (self s)
  ∧ _meter (self (record_op op metric v a s).2) = _meter (self s)
  ∧ world (record_op op metric v a s).2 = world s
  ∧ (∀ k, k ≠ metric →
       metrics (self (record_op op metric v a s).2) !! k = metrics (self s) !! k)
  ∧ instrument_kind <$> metrics (self (record_op op metric v a s).2) !! metric
    = instrument_kind <$> metrics (self s) !! metric.
Proof.
  rewrite record_op_run.
  destruct (metrics (self s) !! metric) as [i|] eqn:Hi.
  - case_decide; simpl.
    + split_and!; try done.
      * intros k Hne. by rewrite lookup_insert_ne.
      * rewrite lookup_insert_eq. simpl. by rewrite take_measurement_kind.
    + by rewrite Hi.
  - simpl. by rewrite Hi.
Qed.

(** X2: Whatever its outcome, a record operation touches nothing but the
    instrument under its identity: service name, port, meter handle and
    process state are unchanged, every other entry of the registry is
    unchanged, the key set is unchanged and the instrument under the identity
    keeps its kind. *)
Theorem record_op_frame (op : RecordOp) (metric : MetricName)
    (v : number) (a : Attributes) (s : State) :
  service_name (self (record_op op metric v a s).2) = service_name (self s)
  ∧ prometheus_port (self (record_op op metric v a s).2) = prometheus_port (self s)
  ∧ _meter (self (record_op op metric v a s).2) = _meter (self s)
  ∧ world (record_op op metric v a s).2 = world s
  ∧ (∀ k, k ≠ metric →
       metrics (self (record_op op metric v a s).2) !! k = metrics (self s) !! k)
  ∧ dom (metrics (self (record_op op metric v a s).2)) = dom (metrics (self s))
  ∧ instrument_kind <$> metrics (self (record_op op metric v a s).2) !! metric
    = instrument_kind <$> metrics (self s) !! metric.
Proof.
  destruct (record_op_frame_aux op metric v a s) as (? & ? & ? & ? & Hother & Hkind).
  split_and!; try done.
  apply set_eq. intros k. rewrite !elem_of_dom.
  destruct (decide (k = metric)) as [->|Hne]; [|by rewrite Hother].
  rewrite <-!(fmap_is_Some instrument_kind). by rewrite Hkind.
Qed.

(** X3: A populated registry stays populated under every record operation,
    successful or not. *)
Theorem record_op_keeps_populated (op : RecordOp) (metric : MetricName)
    (v : number) (a : Attributes) (s : State) :
  registry_populated s → registry_populated (record_op op metric v a s).2.
Proof.
  intros Hpop k.
  destruct (record_op_frame_aux op metric v a s) as (_ & _ & _ & _ & Hother & Hkind).
  destruct (Hpop k) as (i & Hi & Hik).
  destruct (decide (k = metric)) as [->|Hne].
  - rewrite Hi in Hkind. simpl in Hkind.
    destruct (metrics (self (record_op op metric v a s).2) !! metric) as [i'|];
      [|done].
    exists i'. split; [done |]. simpl in Hkind. congruence.
  - exists i. by rewrite Hother.
Qed.

Lemma record_op_keeps_populated_witness :
  registry_populated ready_state
  ∧ registry_populated
      (set_gauge_metric (GaugeKey INPUT_TOKEN_COUNT) (PyInt 512) None ready_state).2.
Proof.
  split; [apply ready_state_populated |].
  apply (record_op_keeps_populated Set_ (GaugeKey INPUT_TOKEN_COUNT) (PyInt 512) None).
  apply ready_state_populated.
Defined.

(** X4: On a populated registry, two record operations of the matching kinds on
    different identities can be made in either order: outcome and final state
    are the same. *)
Theorem record_ops_commute (op1 op2 : RecordOp) (k1 k2 : MetricName)
    (v1 v2 : number) (a1 a2 : Attributes) (s : State) :
  registry_populated s →
  kind_of k1 = op_kind op1 →
  kind_of k2 = op_kind op2 →
  k1 ≠ k2 →
  (record_op op1 k1 v1 a1 ≫= λ _, record_op op2 k2 v2 a2) s
  = (record_op op2 k2 v2 a2 ≫= λ _, record_op op1 k1 v1 a1) s.
Proof.
  intros Hpop Hk1 Hk2 Hne.
  destruct (Hpop k1) as (i1 & Hi1 & Hik1), (Hpop k2) as (i2 & Hi2 & Hik2).
  rewrite !bind_run.
  rewrite (record_op_run op1 k1 v1 a1 s), (record_op_run op2 k2 v2 a2 s), Hi1, Hi2.
  rewrite !decide_True by congruence.
  rewrite !record_op_run. simpl.
  rewrite lookup_insert_ne, Hi2 by done.
  rewrite lookup_insert_ne, Hi1 by done.
  rewrite !decide_True by congruence.
  unfold with_metrics. simpl. do 3 f_equal. by apply insert_insert_ne.
Qed.

Lemma record_ops_commute_witness :
  registry_populated ready_state
  ∧ (increment_counter_metric (CounterKey LLM_INVOCATIONS) default_increment None
       ≫= λ _, record_histogram_metric (HistogramKey LLM_LATENCY_MS) (PyFloat (321 # 1)) None)
      ready_state
    = (record_histogram_metric (HistogramKey LLM_LATENCY_MS) (PyFloat (321 # 1)) None
         ≫= λ _, increment_counter_metric (CounterKey LLM_INVOCATIONS) default_increment None)
        ready_state.
Proof.
  split; [apply ready_state_populated |].
  apply (record_ops_commute Increment Record_ (CounterKey LLM_INVOCATIONS)
           (HistogramKey LLM_LATENCY_MS) default_increment (PyFloat (321 # 1)) None None
           ready_state).
  - apply ready_state_populated.
  - reflexivity.
  - reflexivity.
  - discriminate.
Defined.

(** X5: The message of the [KeyError] of a record operation tells which metric
    was asked for: different identities never share a message. *)
Theorem not_initialized_names_metric (k1 k2 : MetricName) :
  k1 ≠ k2 → not_initialized k1 ≠ not_initialized k2.
Proof.
  intros Hne E. apply Hne. clear Hne.
  destruct k1 as [[]|[]|[]], k2 as [[]|[]|[]];
    first [reflexivity | by vm_compute in E].
Qed.

Lemma not_initialized_names_metric_witness :
  CounterKey LLM_TOKENS_INPUT ≠ CounterKey LLM_TOKENS_OUTPUT
  ∧ not_initialized (CounterKey LLM_TOKENS_INPUT)
    ≠ not_initialized (CounterKey LLM_TOKENS_OUTPUT).
Proof.
  split; [discriminate |].
  apply (not_initialized_names_metric (CounterKey LLM_TOKENS_INPUT)
           (CounterKey LLM_TOKENS_OUTPUT)).
  discriminate.
Defined.

(** ** More on [setup_metrics] *)

Lemma setup_metrics_ok_iff (s : State) :
  (setup_metrics s).1 = Ok ()
  ↔ ∃ meter : Meter,
      _meter (self s) = Some meter ∧ ∀ k : MetricName, ∃ i, create meter k = Ok i.
Proof.
  split.
  - intros Hok. destruct (_meter (self s)) as [meter|] eqn:Hmeter.
    + exists meter. split; [done |]. intros k.
      rewrite (setup_metrics_with_meter meter s Hmeter) in Hok.
      destruct (for_each_install meter catalog s) as (n & reg' & _ & Hin & _ & Hres).
      rewrite Hok in Hres. subst n. rewrite firstn_all in Hin.
      destruct (Hin k (catalog_complete k)) as (i & Hi & _). by exists i.
    + by rewrite (setup_metrics_no_meter s Hmeter) in Hok.
  - intros (meter & Hmeter & Hall).
    rewrite (setup_metrics_with_meter meter s Hmeter).
    destruct (for_each_install meter catalog s) as (n & reg' & _ & _ & _ & Hres).
    destruct (for_each catalog (install meter) s).1 as [[]|e]; [done |].
    destruct Hres as (k & _ & Hraise). destruct (Hall k) as (i & Hi). congruence.
Qed.

(** X6: [setup_metrics] returns exactly when the meter handle is set and the
    meter creates an instrument for every identity of the catalog; what the
    registry held before plays no part. *)
Theorem setup_metrics_returns_iff (s : State) :
  (setup_metrics s).1 = Ok ()
  ↔ ∃ meter : Meter,
      _meter (self s) = Some meter ∧ ∀ k : MetricName, ∃ i, create meter k = Ok i.
Proof. apply setup_metrics_ok_iff. Qed.

(** X7: What a successful [setup_metrics] asks of the meter and stores: each
    counter is the one created under its wire name with unit "1" and its
    description, each histogram under its wire name with unit "ms", each
    gauge under its wire name with unit "1". *)
Theorem setup_metrics_instruments (meter : Meter) (s s' : State) :
  _meter (self s) = Some meter →
  setup_metrics s = (Ok (), s') →
  (∀ m : CounterMetricName, ∃ d c,
      Counter_name.get_description m = Ok d
      ∧ create_counter meter (Counter_name.get_metric_name m) "1" d = Ok c
      ∧ metrics (self s') !! CounterKey m = Some (ICounter c))
  ∧ (∀ m : HistogramMetricName, ∃ d c,
      Histogram_name.get_description m = Ok d
      ∧ create_histogram meter (Histogram_name.get_metric_name m) "ms" d = Ok c
      ∧ metrics (self s') !! HistogramKey m = Some (IHistogram c))
  ∧ (∀ m : GaugeMetricName, ∃ d c,
      Gauge_name.get_description m = Ok d
      ∧ create_gauge meter (Gauge_name.get_metric_name m) "1" d = Ok c
      ∧ metrics (self s') !! GaugeKey m = Some (IGauge c)).
Proof.
  intros Hmeter Hrun. rewrite (setup_metrics_with_meter meter s Hmeter) in Hrun.
  destruct (for_each_install meter catalog s) as (n & reg' & Hs & Hin & _ & Hres).
  assert (Hok : (for_each catalog (install meter) s).1 = Ok ()) by by rewrite Hrun.
  rewrite Hok in Hres. subst n.
  rewrite Hrun in Hs. simpl in Hs. subst s'.
  rewrite firstn_all in Hin. simpl.
  split_and!; intros m.
  - destruct (Hin (CounterKey m) (catalog_complete _)) as (i & Hcreate & Hi).
    unfold create in Hcreate.
    destruct (Counter_name.get_description m) as [d|]; [|done].
    destruct (create_counter meter _ _ _) as [c|] eqn:Hc; [|done].
    injection Hcreate as <-. by exists d, c.
  - destruct (Hin (HistogramKey m) (catalog_complete _)) as (i & Hcreate & Hi).
    unfold create in Hcreate.
    destruct (Histogram_name.get_description m) as [d|]; [|done].
    destruct (create_histogram meter _ _ _) as [c|] eqn:Hc; [|done].
    injection Hcreate as <-. by exists d, c.
  - destruct (Hin (GaugeKey m) (catalog_complete _)) as (i & Hcreate & Hi).
    unfold create in Hcreate.
    destruct (Gauge_name.get_description m) as [d|]; [|done].
    destruct (create_gauge meter _ _ _) as [c|] eqn:Hc; [|done].
    injection Hcreate as <-. by exists d, c.
Qed.

Lemma setup_metrics_instruments_witness :
  ∃ d c,
    Histogram_name.get_description LLM_LATENCY_MS = Ok d
    ∧ create_histogram sdk_meter (Histogram_name.get_metric_name LLM_LATENCY_MS) "ms" d = Ok c
    ∧ metrics (self (setup_metrics (metered_state sdk_meter)).2) !! HistogramKey LLM_LATENCY_MS
      = Some (IHistogram c).
Proof.
  apply (setup_metrics_instruments sdk_meter (metered_state sdk_meter)
           (setup_metrics (metered_state sdk_meter)).2).
  - reflexivity.
  - by vm_compute.
Defined.

(** X8: A second [setup_metrics] never removes an identity: whatever the call
    does, every identity the registry held is still a key afterwards. *)
Theorem setup_metrics_keeps_keys (s : State) :
  dom (metrics (self s)) ⊆ dom (metrics (self (setup_metrics s).2)).
Proof.
  destruct (setup_metrics_run s) as (n & reg' & -> & Hin & Hout & _). simpl.
  intros k Hk. apply elem_of_dom. apply elem_of_dom in Hk.
  destruct (decide (k ∈ take n catalog)) as [Hn|Hn].
  - destruct (Hin k Hn) as (i & -> & _). by eexists.
  - by rewrite (Hout k Hn).
Qed.

(** ** More on [setup_telemetry] *)

Lemma setup_telemetry_provider (h : Host) (s : State) :
  meter_provider (world (setup_telemetry h s).2)
  = Some (default (provider_for (self s)) (meter_provider (world s))).
Proof.
  unfold setup_telemetry, try_except_OSError, start_http_server, set_meter_provider,
         LOG_warning, get_meter, provider_for.
  rewrite !bind_run. unfold get_self, set_world. rewrite !bind_run.
  destruct (start_http_server_outcome h (prometheus_port (self s))) as [e|].
  - destruct e as [errno| | | |]; unfold raise; simpl;
      try (by destruct (meter_provider (world s))).
    destruct (decide (errno = 48)); simpl; by destruct (meter_provider (world s)).
  - simpl. by destruct (meter_provider (world s)).
Qed.

Lemma setup_telemetry_ok_iff (h : Host) (s : State) :
  (setup_telemetry h s).1 = Ok ()
  ↔ start_http_server_outcome h (prometheus_port (self s)) = None
    ∨ start_http_server_outcome h (prometheus_port (self s)) = Some (OSError 48).
Proof.
  pose proof (setup_telemetry_run h s) as (_ & _ & _ & Hrun).
  destruct (start_http_server_outcome h (prometheus_port (self s))) as [e|].
  - destruct Hrun as (_ & Hrun). case_decide as He.
    + subst e. destruct Hrun as (-> & _). split; [by right | done].
    + destruct Hrun as (-> & _). split; [done |]. intros [?|[= ?]]; done.
  - destruct Hrun as (-> & _). split; [by left | done].
Qed.

(** X9: [setup_telemetry] returns exactly when [start_http_server] returns or
    raises [OSError] with errno 48. *)
Theorem setup_telemetry_returns_iff (h : Host) (s : State) :
  (setup_telemetry h s).1 = Ok ()
  ↔ start_http_server_outcome h (prometheus_port (self s)) = None
    ∨ start_http_server_outcome h (prometheus_port (self s)) = Some (OSError 48).
Proof. apply setup_telemetry_ok_iff. Qed.

(** X10: On a port that can be bound, [setup_telemetry] returns with the port
    served, the meter for the manager's service name stored in the handle,
    nothing logged and the registry untouched. *)
Theorem setup_telemetry_binds_free_port (h : Host) (s : State) :
  start_http_server_outcome h (prometheus_port (self s)) = None →
  (setup_telemetry h s).1 = Ok ()
  ∧ http_servers (world (setup_telemetry h s).2)
    = (http_servers (world s) ++ [prometheus_port (self s)])%list
  ∧ _meter (self (setup_telemetry h s).2)
    = Some (get_meter_outcome h (service_name (self s)))
  ∧ LOG (world (setup_telemetry h s).2) = LOG (world s)
  ∧ metrics (self (setup_telemetry h s).2) = metrics (self s).
Proof.
  intros Hbind. pose proof (setup_telemetry_run h s) as (_ & _ & Hreg & Hrun).
  rewrite Hbind in Hrun. destruct Hrun as (? & ? & ? & ?). by split_and!.
Qed.

Lemma setup_telemetry_binds_free_port_witness :
  start_http_server_outcome (free_host Linux) (prometheus_port (self fresh_state)) = None
  ∧ (setup_telemetry (free_host Linux) fresh_state).1 = Ok ()
  ∧ http_servers (world (setup_telemetry (free_host Linux) fresh_state).2) = [9464]
  ∧ _meter (self (setup_telemetry (free_host Linux) fresh_state).2) = Some sdk_meter
  ∧ LOG (world (setup_telemetry (free_host Linux) fresh_state).2) = []
  ∧ metrics (self (setup_telemetry (free_host Linux) fresh_state).2) = ∅.
Proof.
  split; [reflexivity |].
  apply (setup_telemetry_binds_free_port (free_host Linux) fresh_state).
  reflexivity.
Defined.

(** X11: When [start_http_server] raises [OSError] with errno 48,
    [setup_telemetry] still returns and stores the meter; it serves no port
    and logs the one warning that names the manager's port. *)
Theorem setup_telemetry_swallows_errno_48 (h : Host) (s : State) :
  start_http_server_outcome h (prometheus_port (self s)) = Some (OSError 48) →
  (setup_telemetry h s).1 = Ok ()
  ∧ http_servers (world (setup_telemetry h s).2) = http_servers (world s)
  ∧ _meter (self (setup_telemetry h s).2)
    = Some (get_meter_outcome h (service_name (self s)))
  ∧ LOG (world (setup_telemetry h s).2)
    = (LOG (world s)
       ++ [warning ("Prometheus HTTP server already running on port "
                    ++ pretty (prometheus_port (self s)))])%list.
Proof.
  intros Hbind. pose proof (setup_telemetry_run h s) as (_ & _ & _ & Hrun).
  rewrite Hbind, decide_True in Hrun by done.
  destruct Hrun as (? & ? & ? & ?). by split_and!.
Qed.

Lemma setup_telemetry_swallows_errno_48_witness :
  start_http_server_outcome (busy_host Darwin) (prometheus_port (self fresh_state))
  = Some (OSError 48)
  ∧ (setup_telemetry (busy_host Darwin) fresh_state).1 = Ok ()
  ∧ http_servers (world (setup_telemetry (busy_host Darwin) fresh_state).2) = []
  ∧ _meter (self (setup_telemetry (busy_host Darwin) fresh_state).2) = Some sdk_meter
  ∧ LOG (world (setup_telemetry (busy_host Darwin) fresh_state).2)
    = [warning "Prometheus HTTP server already running on port 9464"].
Proof.
  split; [reflexivity |].
  apply (setup_telemetry_swallows_errno_48 (busy_host Darwin) fresh_state).
  reflexivity.
Defined.

(** X12: The meter provider is installed before the port is bound: in a process
    without a provider, [setup_telemetry] leaves the provider that carries
    the manager's service name under "service.name" and the Prometheus
    reader, also when the call raises. *)
Theorem setup_telemetry_installs_provider (h : Host) (s : State) :
  meter_provider (world s) = None →
  ∃ p : MeterProvider,
    meter_provider (world (setup_telemetry h s).2) = Some p
    ∧ resource p !! SERVICE_NAME = Some (service_name (self s))
    ∧ metric_readers p = [PrometheusMetricReader].
Proof.
  intros Hnone. exists (provider_for (self s)).
  rewrite setup_telemetry_provider, Hnone. simpl.
  split_and!; [done | apply lookup_singleton_eq | done].
Qed.

Lemma setup_telemetry_installs_provider_witness :
  meter_provider (world fresh_state) = None
  ∧ (setup_telemetry (busy_host Linux) fresh_state).1 = Raise (OSError 98)
  ∧ ∃ p : MeterProvider,
      meter_provider (world (setup_telemetry (busy_host Linux) fresh_state).2) = Some p
      ∧ resource p !! SERVICE_NAME = Some "memobase-server"
      ∧ metric_readers p = [PrometheusMetricReader].
Proof.
  split; [reflexivity |]. split; [by vm_compute |].
  apply (setup_telemetry_installs_provider (busy_host Linux) fresh_state).
  reflexivity.
Defined.



(** ** More on the import *)

Lemma import_module_run (h : Host) (w : World) :
  import_module h w
  = match setup_telemetry h (mkState (__init__ default_service_name default_prometheus_port) w) with
    | (Ok _, s1) => setup_metrics s1
    | (Raise e, s1) => (Raise e, s1)
    end.
Proof. unfold import_module. by rewrite bind_run. Qed.

(** X14: The import succeeds exactly when the default port 9464 can be bound, or
    binding it fails with errno 48, and the meter handed out for
    "memobase-server" creates every instrument of the catalog. *)
Theorem import_module_returns_iff (h : Host) (w : World) :
  (import_module h w).1 = Ok ()
  ↔ (start_http_server_outcome h 9464 = None
     ∨ start_http_server_outcome h 9464 = Some (OSError 48))
    ∧ ∀ k : MetricName, ∃ i, create (get_meter_outcome h "memobase-server") k = Ok i.
Proof.
  rewrite import_module_run.
  set (s0 := mkState _ w).
  pose proof (setup_telemetry_ok_iff h s0) as Htel.
  pose proof (setup_telemetry_run h s0) as (_ & _ & _ & Hrun).
  change (prometheus_port (self s0)) with 9464 in *.
  change (service_name (self s0)) with "memobase-server" in *.
  destruct (setup_telemetry h s0) as [[[]|e] s1]; simpl in *.
  - assert (Hmeter : _meter (self s1) = Some (get_meter_outcome h "memobase-server")).
    { destruct (start_http_server_outcome h 9464) as [e|].
      - destruct Hrun as (_ & Hrun). case_decide; [by destruct Hrun as (_ & ? & _) |].
        by destruct Hrun as (? & _).
      - by destruct Hrun as (_ & ? & _). }
    rewrite setup_metrics_ok_iff. split.
    + intros (meter & Hm & Hall). split; [by apply Htel |].
      rewrite Hmeter in Hm. by injection Hm as <-.
    + intros (_ & Hall). by eexists.
  - split; [done |]. intros (Hbind & _). apply Htel in Hbind. done.
Qed.

(** X15: When the import raises, the exception is the one [start_http_server]
    raised, no instrument exists and the meter handle is unset; or it is the
    one the meter raised on creating an instrument of the catalog. *)
Theorem import_module_failure (h : Host) (w : World) (e : exn) :
  (import_module h w).1 = Raise e →
  (start_http_server_outcome h 9464 = Some e
   ∧ e ≠ OSError 48
   ∧ metrics (self (import_module h w).2) = ∅
   ∧ _meter (self (import_module h w).2) = None)
  ∨ (∃ k : MetricName, create (get_meter_outcome h "memobase-server") k = Raise e).
Proof.
  rewrite import_module_run.
  set (s0 := mkState _ w).
  pose proof (setup_telemetry_run h s0) as (_ & _ & Hreg & Hrun).
  change (prometheus_port (self s0)) with 9464 in *.
  change (service_name (self s0)) with "memobase-server" in *.
  change (metrics (self s0)) with (∅ : gmap MetricName Instrument) in *.
  change (_meter (self s0)) with (@None Meter) in *.
  destruct (setup_telemetry h s0) as [[[]|e0] s1]; simpl in *.
  - intros Hraise. right.
    assert (Hmeter : _meter (self s1) = Some (get_meter_outcome h "memobase-server")).
    { destruct (start_http_server_outcome h 9464) as [e'|].
      - destruct Hrun as (_ & Hrun). case_decide; [by destruct Hrun as (_ & ? & _) |].
        by destruct Hrun as (? & _).
      - by destruct Hrun as (_ & ? & _). }
    rewrite (setup_metrics_with_meter _ s1 Hmeter) in Hraise.
    destruct (for_each_install (get_meter_outcome h "memobase-server") catalog s1)
      as (n & reg' & _ & _ & _ & Hres).
    rewrite Hraise in Hres. destruct Hres as (k & _ & Hk). by exists k.
  - intros [= ->]. left.
    destruct (start_http_server_outcome h 9464) as [e'|].
    + destruct Hrun as (_ & Hrun). case_decide as He.
      * by destruct Hrun as (? & _).
      * destruct Hrun as ([= ->] & ? & _). by split_and!.
    + by destruct Hrun as (? & _).
Qed.

Lemma import_module_failure_witness :
  (import_module (busy_host Linux) fresh_world).1 = Raise (OSError 98)
  ∧ ((start_http_server_outcome (busy_host Linux) 9464 = Some (OSError 98)
      ∧ OSError 98 ≠ OSError 48
      ∧ metrics (self (import_module (busy_host Linux) fresh_world).2) = ∅
      ∧ _meter (self (import_module (busy_host Linux) fresh_world).2) = None)
     ∨ (∃ k : MetricName,
          create (get_meter_outcome (busy_host Linux) "memobase-server") k
          = Raise (OSError 98))).
Proof.
  split; [by vm_compute |].
  apply (import_module_failure (busy_host Linux) fresh_world (OSError 98)).
  by vm_compute.
Defined.
